(** * The source-control viewlet (scmViewlet.ts)

    A shallow embedding of the list-synchronisation, identity-key,
    action-routing, commit-input and layout logic of
    [src/vs/workbench/parts/scm/electron-browser/scmViewlet.ts].

    Conventions.  JavaScript objects are records; a [string | undefined]
    field is an [option string]; pixel sizes are integers ([Z]); calls made
    on the injected services (command service, error reporter, message
    service, contributed actions) are recorded, in order, in a trace. *)

From Stdlib Require Import String Ascii List ZArith Bool Lia.
Import ListNotations.
Open Scope string_scope.
Open Scope list_scope.

(** ** Data model

    The interfaces [ISCMRepository], [ISCMProvider], [ISCMResourceGroup] and
    [ISCMResource] are declared in [vs/workbench/services/scm/common/scm];
    the records below carry the fields the viewlet reads.  The object graph
    of the source is cyclic (a resource points to its group, the group to
    its provider, the provider to its groups): the back references
    [r.resourceGroup] and [g.provider] are kept as the small records
    [SCMResourceGroupRef] and [SCMProviderRef], which hold what the viewlet
    reads through them. *)

Record URI := { toString : string }.

Record SCMProviderRef := {
  contextValue : string;
  provider_label : string
}.

Record SCMResourceGroupRef := {
  provider : SCMProviderRef;
  group_id : string
}.

Record ISCMResourceDecorations := {
  strikeThrough : bool;
  faded : bool;
  icon : option string;
  iconDark : option string;
  tooltip : option string
}.

(** [oid] is the identity of the JavaScript object: two distinct objects
    never share it, so that [===] on objects is equality of records. *)
Record ISCMResource := {
  oid : nat;
  resourceGroup : SCMResourceGroupRef;
  sourceUri : URI;
  decorations : ISCMResourceDecorations
}.

Record ISCMResourceCollection := { resources : list ISCMResource }.

Record ISCMResourceGroup := {
  group_oid : nat;
  group_ref : SCMResourceGroupRef;
  group_label : string;
  hideWhenEmpty : bool;
  resourceCollection : ISCMResourceCollection
}.

(** Arguments of a contributed command ([any[]] in the source). *)
Inductive Any :=
| AnyString (s : string)
| AnyNumber (n : Z)
| AnyUri (u : URI).

Record Command := {
  command_id : string;
  title : string;
  arguments : list Any
}.

Record ISCMProvider := {
  provider_ref : SCMProviderRef;
  rootUri : option URI;
  provider_resources : list ISCMResourceGroup;
  commitTemplate : option string;
  acceptInputCommand : option Command;
  statusBarCommands : option (list Command);
  (* whether the optional event [onDidChangeCommitTemplate] is defined *)
  onDidChangeCommitTemplate : bool
}.

Record ISCMInput := { value : string }.

Record ISCMRepository := {
  repository_provider : ISCMProvider;
  input : ISCMInput
}.

Record ISCMService := { repositories : list ISCMRepository }.

(** An element of the provider panel's list: [ISCMResourceGroup | ISCMResource]. *)
Inductive ListElement :=
| GroupElement (g : ISCMResourceGroup)
| ResourceElement (r : ISCMResource).

(** Modelled from the spec: [isSCMResource] of [./scmUtil] is not part of
    this file; the spec describes it as the runtime predicate that narrows
    between ResourceGroup and Resource, i.e. the tag of the union. *)
Definition isSCMResource (e : ListElement) : bool :=
  match e with
  | ResourceElement _ => true
  | GroupElement _ => false
  end.

(** *** Decidable equality ([===] on list elements) *)

Definition URI_eq_dec (x y : URI) : {x = y} + {x <> y}.
Proof. decide equality; apply string_dec. Defined.

Definition SCMProviderRef_eq_dec (x y : SCMProviderRef) : {x = y} + {x <> y}.
Proof. decide equality; apply string_dec. Defined.

Definition SCMResourceGroupRef_eq_dec (x y : SCMResourceGroupRef) : {x = y} + {x <> y}.
Proof. decide equality; [apply string_dec | apply SCMProviderRef_eq_dec]. Defined.

Definition option_string_eq_dec (x y : option string) : {x = y} + {x <> y}.
Proof. decide equality; apply string_dec. Defined.

Definition ISCMResourceDecorations_eq_dec (x y : ISCMResourceDecorations) :
  {x = y} + {x <> y}.
Proof. decide equality; first [apply option_string_eq_dec | apply bool_dec]. Defined.

Definition ISCMResource_eq_dec (x y : ISCMResource) : {x = y} + {x <> y}.
Proof.
  decide equality;
    first [ apply ISCMResourceDecorations_eq_dec | apply URI_eq_dec
          | apply SCMResourceGroupRef_eq_dec | apply Nat.eq_dec ].
Defined.

Definition ISCMResourceCollection_eq_dec (x y : ISCMResourceCollection) :
  {x = y} + {x <> y}.
Proof. decide equality; apply list_eq_dec, ISCMResource_eq_dec. Defined.

Definition ISCMResourceGroup_eq_dec (x y : ISCMResourceGroup) : {x = y} + {x <> y}.
Proof.
  decide equality;
    first [ apply ISCMResourceCollection_eq_dec | apply bool_dec | apply string_dec
          | apply SCMResourceGroupRef_eq_dec | apply Nat.eq_dec ].
Defined.

Definition ListElement_eq_dec (x y : ListElement) : {x = y} + {x <> y}.
Proof.
  decide equality; [apply ISCMResourceGroup_eq_dec | apply ISCMResource_eq_dec].
Defined.

(** [a !== b] *)
Definition strict_neq (a b : ListElement) : bool :=
  if ListElement_eq_dec a b then false else true.

(** ** identityProvider (lines 71-80) *)

Definition identityProvider (r : ListElement) : string :=
  match r with
  | ResourceElement r =>
      let group := resourceGroup r in
      let provider := provider group in
      (contextValue provider ++ "/" ++ group_id group ++ "/"
         ++ toString (sourceUri r))%string
  | GroupElement r =>
      let provider := provider (group_ref r) in
      (contextValue provider ++ "/" ++ group_id (group_ref r))%string
  end.

(** ** List delegates (lines 87-96 and 390-397) *)

Definition ProvidersListDelegate_getHeight (element : ISCMRepository) : Z := 22%Z.

Definition ProvidersListDelegate_getTemplateId (element : ISCMRepository) : string :=
  "provider".

Definition ProviderListDelegate_getHeight : Z := 22%Z.

Definition ProviderListDelegate_getTemplateId (element : ListElement) : string :=
  if isSCMResource element then "resource" else "resource group".

(** ** The list widget

    Modelled from the spec: [List.splice] of
    [vs/base/browser/ui/list/listWidget] is not part of this file; the spec
    gives it splice semantics: remove the existing range, insert the new
    range. *)
Definition splice {A : Type} (start deleteCount : nat) (elements l : list A) : list A :=
  firstn start l ++ elements ++ skipn (start + deleteCount) l.

(** ** ProvidersPanel (lines 205-252) *)

Record ProvidersPanel := {
  providers_list : list ISCMRepository;
  minimumBodySize : Z;
  maximumBodySize : Z
}.

Definition ProvidersPanel_updateBodySize (scmService : ISCMService) (p : ProvidersPanel)
  : ProvidersPanel :=
  let size := (Z.min 5 (Z.of_nat (length (repositories scmService))) * 22)%Z in
  {| providers_list := providers_list p;
     minimumBodySize := size;
     maximumBodySize := size |}.

Definition ProvidersPanel_update (scmService : ISCMService) (p : ProvidersPanel)
  : ProvidersPanel :=
  let p := {| providers_list :=
                splice 0 (length (providers_list p)) (repositories scmService)
                       (providers_list p);
              minimumBodySize := minimumBodySize p;
              maximumBodySize := maximumBodySize p |} in
  ProvidersPanel_updateBodySize scmService p.

Definition ProvidersPanel_onDidAddRepository (scmService : ISCMService)
  (repository : ISCMRepository) (p : ProvidersPanel) : ProvidersPanel :=
  ProvidersPanel_update scmService p.

Definition ProvidersPanel_onDidRemoveRepository (scmService : ISCMService)
  (repository : ISCMRepository) (p : ProvidersPanel) : ProvidersPanel :=
  ProvidersPanel_update scmService p.

(** The constructor sizes the body; [renderBody] creates an empty list and
    calls [update]. *)
Definition ProvidersPanel_new (scmService : ISCMService) : ProvidersPanel :=
  ProvidersPanel_updateBodySize scmService
    {| providers_list := []; minimumBodySize := 0%Z; maximumBodySize := 0%Z |}.

Definition ProvidersPanel_renderBody (scmService : ISCMService) (p : ProvidersPanel)
  : ProvidersPanel :=
  ProvidersPanel_update scmService
    {| providers_list := [];
       minimumBodySize := minimumBodySize p;
       maximumBodySize := maximumBodySize p |}.

(** ** Service calls

    Promises are observed through their outcome; the calls the viewlet makes
    on its collaborators are recorded as events. *)

Inductive TPromise :=
| Fulfilled
| Rejected (err : string).

Inductive IAction :=
| MenuItemAction (id : string)
| OtherAction (id : string).

Inductive Event :=
| ActionRun (action : IAction) (args : list ListElement)
| ExecuteCommand (id : string) (args : list Any)
| ResourceOpen (r : ISCMResource)
| OnUnexpectedError (err : string)
| MessageShowError (err : string).

Definition is_ExecuteCommand (e : Event) : bool :=
  match e with
  | ExecuteCommand _ _ => true
  | _ => false
  end.

Definition is_MessageShowError (e : Event) : bool :=
  match e with
  | MessageShowError _ => true
  | _ => false
  end.

(** The collaborators of the viewlet that live outside this file: the outcome
    of [commandService.executeCommand], of a contributed action's [run], of a
    resource's [open], and the base class method [ActionRunner.runAction]. *)
Record Host := {
  executeCommand : string -> list Any -> TPromise;
  action_run : IAction -> list ListElement -> TPromise;
  resource_open : ISCMResource -> TPromise;
  super_runAction : IAction -> ListElement -> TPromise * list Event
}.

(** [promise.done(undefined, handler)] *)
Definition done_ (handler : string -> Event) (promise : TPromise) : list Event :=
  match promise with
  | Fulfilled => []
  | Rejected err => [handler err]
  end.

(** ** MultipleSelectionActionRunner.runAction (lines 311-331) *)

Definition runAction (host : Host) (getSelectedResources : unit -> list ListElement)
  (action : IAction) (context : ListElement) : TPromise * list Event :=
  match action with
  | MenuItemAction _ =>
      let selection := getSelectedResources tt in
      let filteredSelection := filter (fun s => strict_neq s context) selection in
      if (length selection =? length filteredSelection)%nat
         || (length selection =? 1)%nat
      then (action_run host action [context], [ActionRun action [context]])
      else (action_run host action (context :: filteredSelection),
            [ActionRun action (context :: filteredSelection)])
  | OtherAction _ => super_runAction host action context
  end.

(** SCMMenuItemActionItem.onClick (lines 60-69); [actionRunner_run] is the
    runner's [run] method of the base class. *)
Definition SCMMenuItemActionItem_onClick
  (actionRunner_run : IAction -> ListElement -> TPromise * list Event)
  (commandAction : IAction) (context : ListElement) : list Event :=
  let '(promise, calls) := actionRunner_run commandAction context in
  calls ++ done_ MessageShowError promise.

(** ** ProviderPanel (lines 430-656) *)

(** A JavaScript number that results from arithmetic on a possibly
    [undefined] operand. *)
Inductive number :=
| NaN
| Num (z : Z).

Record ProviderPanel := {
  repository : ISCMRepository;
  cachedHeight : option Z;
  (* this.inputBox.value *)
  inputBox_value : string;
  (* the listeners of lines 489-490 are registered *)
  inputBound : bool;
  (* updateInputBox is subscribed to onDidChangeCommitTemplate (line 499) *)
  commitTemplateListener : bool;
  (* updateList is subscribed to onDidChangeResources (line 537) *)
  resourcesListener : bool;
  (* class 'scroll' on this.inputBoxContainer *)
  inputBoxContainer_scroll : bool;
  (* this.listContainer.style.height, in px *)
  listContainer_height : number;
  (* argument of the last this.list.layout call *)
  list_layout : number;
  (* content of this.list *)
  list_elements : list ListElement
}.

Definition with_repository_input_value (v : string) (p : ProviderPanel) : ProviderPanel :=
  {| repository := {| repository_provider := repository_provider (repository p);
                      input := {| value := v |} |};
     cachedHeight := cachedHeight p;
     inputBox_value := inputBox_value p;
     inputBound := inputBound p;
     commitTemplateListener := commitTemplateListener p;
     resourcesListener := resourcesListener p;
     inputBoxContainer_scroll := inputBoxContainer_scroll p;
     listContainer_height := listContainer_height p;
     list_layout := list_layout p;
     list_elements := list_elements p |}.

Definition with_inputBox_value (v : string) (p : ProviderPanel) : ProviderPanel :=
  {| repository := repository p;
     cachedHeight := cachedHeight p;
     inputBox_value := v;
     inputBound := inputBound p;
     commitTemplateListener := commitTemplateListener p;
     resourcesListener := resourcesListener p;
     inputBoxContainer_scroll := inputBoxContainer_scroll p;
     listContainer_height := listContainer_height p;
     list_layout := list_layout p;
     list_elements := list_elements p |}.

Definition with_list_elements (l : list ListElement) (p : ProviderPanel) : ProviderPanel :=
  {| repository := repository p;
     cachedHeight := cachedHeight p;
     inputBox_value := inputBox_value p;
     inputBound := inputBound p;
     commitTemplateListener := commitTemplateListener p;
     resourcesListener := resourcesListener p;
     inputBoxContainer_scroll := inputBoxContainer_scroll p;
     listContainer_height := listContainer_height p;
     list_layout := list_layout p;
     list_elements := l |}.

(** Modelled from the spec: the value setters of [ISCMInput] and [InputBox]
    are not part of this file.  The spec's two-way binding: a change of the
    view value reaches [repository.input.value] (listener of line 489), an
    external change of [repository.input.value] reaches the view (listener
    of line 490), and setting the view to the value it already has fires
    nothing, which ends the round trip. *)
Definition input_set_value (v : string) (p : ProviderPanel) : ProviderPanel :=
  let p := with_repository_input_value v p in
  if inputBound p then with_inputBox_value v p else p.

Definition inputBox_set_value (v : string) (p : ProviderPanel) : ProviderPanel :=
  if String.eqb (inputBox_value p) v then p
  else
    let p := with_inputBox_value v p in
    if inputBound p then input_set_value v p else p.

(** updateInputBox (lines 632-638) *)
Definition updateInputBox (p : ProviderPanel) : ProviderPanel :=
  match commitTemplate (repository_provider (repository p)) with
  | None => p
  | Some template => inputBox_set_value template p
  end.

(** updateList (lines 586-597) *)
Definition updateList (p : ProviderPanel) : ProviderPanel :=
  let elements :=
    fold_left
      (fun r g =>
         if (length (resources (resourceCollection g)) =? 0)%nat && hideWhenEmpty g
         then r
         else r ++ [GroupElement g] ++ map ResourceElement (resources (resourceCollection g)))
      (provider_resources (repository_provider (repository p)))
      [] in
  with_list_elements (splice 0 (length (list_elements p)) elements (list_elements p)) p.

(** renderBody (lines 473-539): a new, empty input box takes the
    repository input's value, the two-way binding and the commit-template
    subscription are set up, the template is applied, then a new list is
    filled. *)
Definition renderBody (p : ProviderPanel) : ProviderPanel :=
  let p :=
    {| repository := repository p;
       cachedHeight := cachedHeight p;
       inputBox_value := "";
       inputBound := false;
       commitTemplateListener := false;
       resourcesListener := false;
       inputBoxContainer_scroll := false;
       listContainer_height := listContainer_height p;
       list_layout := list_layout p;
       list_elements := [] |} in
  let p := inputBox_set_value (value (input (repository p))) p in
  let p :=
    {| repository := repository p;
       cachedHeight := cachedHeight p;
       inputBox_value := inputBox_value p;
       inputBound := true;
       commitTemplateListener :=
         onDidChangeCommitTemplate (repository_provider (repository p));
       resourcesListener := resourcesListener p;
       inputBoxContainer_scroll := inputBoxContainer_scroll p;
       listContainer_height := listContainer_height p;
       list_layout := list_layout p;
       list_elements := list_elements p |} in
  let p := updateInputBox p in
  let p :=
    {| repository := repository p;
       cachedHeight := cachedHeight p;
       inputBox_value := inputBox_value p;
       inputBound := inputBound p;
       commitTemplateListener := commitTemplateListener p;
       resourcesListener := true;
       inputBoxContainer_scroll := inputBoxContainer_scroll p;
       listContainer_height := listContainer_height p;
       list_layout := list_layout p;
       list_elements := list_elements p |} in
  updateList p.

(** The provider fires "commit template changed": the subscribed handler, if
    any, runs. *)
Definition fire_onDidChangeCommitTemplate (p : ProviderPanel) : ProviderPanel :=
  if commitTemplateListener p then updateInputBox p else p.

(** The provider fires "resources changed". *)
Definition fire_onDidChangeResources (p : ProviderPanel) : ProviderPanel :=
  if resourcesListener p then updateList p else p.

(** The user edits the commit message in the view. *)
Definition user_types (v : string) (p : ProviderPanel) : ProviderPanel :=
  inputBox_set_value v p.

(** layoutBody (lines 541-556).  [height] is the optional argument, which
    defaults to [this.cachedHeight]; [editorHeight] is [this.inputBox.height]
    as the control reports it after [this.inputBox.layout()]. *)
Definition js_not (height : option Z) : bool :=
  match height with
  | None => true
  | Some 0%Z => true
  | Some _ => false
  end.

(** [b === undefined] for a boolean [b] *)
Definition boolean_is_undefined (b : bool) : bool := false.

Definition layoutBody (height : option Z) (editorHeight : Z) (p : ProviderPanel)
  : ProviderPanel :=
  let height := match height with Some h => Some h | None => cachedHeight p end in
  if boolean_is_undefined (js_not height) then p
  else
    let listHeight :=
      match height with
      | Some height => Num (height - (editorHeight + 12))%Z
      | None => NaN
      end in
    {| repository := repository p;
       cachedHeight := height;
       inputBox_value := inputBox_value p;
       inputBound := inputBound p;
       commitTemplateListener := commitTemplateListener p;
       resourcesListener := resourcesListener p;
       inputBoxContainer_scroll := (134 <=? editorHeight)%Z;
       listContainer_height := listHeight;
       list_layout := listHeight;
       list_elements := list_elements p |}.

(** getSelectedResources (lines 627-630); [list_getSelectedElements] is what
    the list widget reports as its current selection. *)
Definition getSelectedResources (list_getSelectedElements : list ListElement)
  : list ListElement :=
  filter (fun r => isSCMResource r) list_getSelectedElements.

(** The runner the panel builds for its context menu and for its resource
    rows (lines 513 and 623): its selection is the panel's. *)
Definition ProviderPanel_runAction (host : Host)
  (list_getSelectedElements : list ListElement)
  (action : IAction) (context : ListElement) : TPromise * list Event :=
  runAction host (fun _ => getSelectedResources list_getSelectedElements) action context.

(** open (lines 599-601) *)
Definition open (host : Host) (e : ISCMResource) : list Event :=
  ResourceOpen e :: done_ OnUnexpectedError (resource_open host e).

(** onDidAcceptInput (lines 640-650): the panel after the call, and the
    calls made. *)
Definition onDidAcceptInput (host : Host) (p : ProviderPanel)
  : ProviderPanel * list Event :=
  match acceptInputCommand (repository_provider (repository p)) with
  | None => (p, [])
  | Some command =>
      let id := command_id command in
      let args := arguments command in
      (p, ExecuteCommand id args :: done_ OnUnexpectedError (executeCommand host id args))
  end.

(** ** The flattened list, as the specification words it

    A group is shown when its resource count is non-zero or its
    [hideWhenEmpty] flag is false; every shown group is emitted, in
    provider order, immediately followed by its resources in order. *)
Definition shown (g : ISCMResourceGroup) : bool :=
  negb (length (resources (resourceCollection g)) =? 0)%nat || negb (hideWhenEmpty g).

Fixpoint flattened (groups : list ISCMResourceGroup) : list ListElement :=
  match groups with
  | [] => []
  | g :: groups =>
      if shown g
      then GroupElement g :: map ResourceElement (resources (resourceCollection g))
             ++ flattened groups
      else flattened groups
  end.

(** ** Strings without a separator *)

Fixpoint no_slash (s : string) : bool :=
  match s with
  | EmptyString => true
  | String c s => negb (Ascii.eqb c "/") && no_slash s
  end.

(** ** Sample data *)

Definition plain : ISCMResourceDecorations :=
  {| strikeThrough := false; faded := false;
     icon := None; iconDark := None; tooltip := None |}.

Definition git : SCMProviderRef :=
  {| contextValue := "git"; provider_label := "Git" |}.

Definition working_tree : SCMResourceGroupRef :=
  {| provider := git; group_id := "working-tree" |}.

Definition file (n : nat) (uri : string) : ISCMResource :=
  {| oid := n; resourceGroup := working_tree;
     sourceUri := {| toString := uri |}; decorations := plain |}.

Definition a_ts : ISCMResource := file 1 "file:///a.ts".
Definition b_ts : ISCMResource := file 2 "file:///b.ts".
Definition c_ts : ISCMResource := file 3 "file:///c.ts".
Definition d_ts : ISCMResource := file 4 "file:///d.ts".

Definition group (n : nat) (id : string) (hide : bool) (rs : list ISCMResource)
  : ISCMResourceGroup :=
  {| group_oid := n;
     group_ref := {| provider := git; group_id := id |};
     group_label := id;
     hideWhenEmpty := hide;
     resourceCollection := {| resources := rs |} |}.

Definition merge_group : ISCMResourceGroup := group 10 "merge" true [].
Definition index_group : ISCMResourceGroup := group 11 "index" false [].
Definition working_tree_group : ISCMResourceGroup :=
  group 12 "working-tree" true [a_ts; b_ts].

Definition git_provider (template : option string) (accept : option Command)
  : ISCMProvider :=
  {| provider_ref := git;
     rootUri := None;
     provider_resources := [merge_group; index_group; working_tree_group];
     commitTemplate := template;
     acceptInputCommand := accept;
     statusBarCommands := None;
     onDidChangeCommitTemplate := true |}.

Definition panel_of (prov : ISCMProvider) (message : string) : ProviderPanel :=
  {| repository := {| repository_provider := prov; input := {| value := message |} |};
     cachedHeight := None;
     inputBox_value := "";
     inputBound := false;
     commitTemplateListener := false;
     resourcesListener := false;
     inputBoxContainer_scroll := false;
     listContainer_height := NaN;
     list_layout := NaN;
     list_elements := [] |}.

Definition git_commit : Command :=
  {| command_id := "git.commitWithInput"; title := "Commit";
     arguments := [AnyUri {| toString := "file:///repo" |}] |}.

(** Two resources whose provider context value and group id split the
    same text at different places. *)
Definition slash_in_context : ISCMResource :=
  {| oid := 20;
     resourceGroup :=
       {| provider := {| contextValue := "a/b"; provider_label := "x" |};
          group_id := "c" |};
     sourceUri := {| toString := "file:///a.ts" |};
     decorations := plain |}.

Definition slash_in_group : ISCMResource :=
  {| oid := 21;
     resourceGroup :=
       {| provider := {| contextValue := "a"; provider_label := "x" |};
          group_id := "b/c" |};
     sourceUri := {| toString := "file:///a.ts" |};
     decorations := plain |}.

Definition quiet_host : Host :=
  {| executeCommand := fun _ _ => Fulfilled;
     action_run := fun _ _ => Fulfilled;
     resource_open := fun _ => Fulfilled;
     super_runAction := fun action context => (Fulfilled, [ActionRun action [context]]) |}.

Definition failing_host : Host :=
  {| executeCommand := fun _ _ => Rejected "no repository";
     action_run := fun _ _ => Rejected "failed";
     resource_open := fun _ => Rejected "missing";
     super_runAction := fun action context => (Fulfilled, [ActionRun action [context]]) |}.

(** ** Renderers of the provider panel's rows (lines 261-300 and 333-388)

    The menus ([./scmMenus]) are outside this file: what they answer is a
    parameter. *)

Record SCMMenus := {
  getResourceGroupActions : ISCMResourceGroup -> list IAction;
  getResourceActions : ISCMResource -> list IAction;
  getResourceGroupContextActions : ISCMResourceGroup -> list IAction;
  getResourceContextActions : ISCMResource -> list IAction
}.

Record ResourceGroupTemplate := {
  group_name_textContent : string;
  group_count : nat;
  group_actionBar_context : option ListElement;
  group_actionBar_actions : list IAction
}.

(** ResourceGroupRenderer.renderElement (lines 289-295) *)
Definition ResourceGroupRenderer_renderElement (scmMenus : SCMMenus)
  (group : ISCMResourceGroup) (template : ResourceGroupTemplate) : ResourceGroupTemplate :=
  {| group_name_textContent := group_label group;
     group_count := length (resources (resourceCollection group));
     group_actionBar_context := Some (GroupElement group);
     group_actionBar_actions := getResourceGroupActions scmMenus group |}.

Inductive ThemeType := LIGHT | DARK | HIGH_CONTRAST.

Record ResourceTemplate := {
  fileLabel_file : option URI;
  (* class 'strike-through' on template.name *)
  name_strikeThrough : bool;
  (* class 'faded' on template.element *)
  element_faded : bool;
  decorationIcon_backgroundImage : string;
  (* the value last assigned to template.decorationIcon.title *)
  decorationIcon_title : option string;
  actionBar_context : option ListElement;
  actionBar_actions : list IAction
}.

(** [if (icon)]: an undefined and an empty string are falsy. *)
Definition truthy (s : option string) : bool :=
  match s with
  | None => false
  | Some EmptyString => false
  | Some (String _ _) => true
  end.

Definition theme_icon (theme : ThemeType) (resource : ISCMResource) : option string :=
  match theme with
  | LIGHT => icon (decorations resource)
  | _ => iconDark (decorations resource)
  end.

(** ResourceRenderer.renderElement (lines 366-383) *)
Definition ResourceRenderer_renderElement (scmMenus : SCMMenus) (theme : ThemeType)
  (resource : ISCMResource) (template : ResourceTemplate) : ResourceTemplate :=
  let icon := theme_icon theme resource in
  {| fileLabel_file := Some (sourceUri resource);
     name_strikeThrough := strikeThrough (decorations resource);
     element_faded := faded (decorations resource);
     decorationIcon_backgroundImage :=
       match icon with
       | Some i => if truthy icon then ("url('" ++ i ++ "')")%string else ""
       | None => ""
       end;
     decorationIcon_title :=
       if truthy icon then tooltip (decorations resource)
       else decorationIcon_title template;
     actionBar_context := Some (ResourceElement resource);
     actionBar_actions := getResourceActions scmMenus resource |}.

(** What the group rows of a list show on their count badges, added up. *)
Definition badge_total (scmMenus : SCMMenus) (template : ResourceGroupTemplate)
  (elements : list ListElement) : nat :=
  list_sum
    (map (fun e => match e with
                   | GroupElement g =>
                       group_count (ResourceGroupRenderer_renderElement scmMenus g template)
                   | ResourceElement _ => 0
                   end)
         elements).

(** ** The context menu of a row (lines 609-625) *)

Inductive Anchor :=
| AnchorElement (row : nat)
| AnchorPoint (x y : Z).

Record IListContextMenuEvent := {
  event_element : ListElement;
  event_anchor : Anchor
}.

(** What the panel hands to [contextMenuService.showContextMenu].  The
    runner reads the list's selection when an action is run:
    [delegate_runAction] takes what the list widget reports as selected at
    that time. *)
Record ContextMenuDelegate := {
  getAnchor : Anchor;
  getActions : list IAction;
  getActionsContext : ListElement;
  delegate_runAction : list ListElement -> IAction -> ListElement -> TPromise * list Event
}.

Definition onListContextMenu (host : Host) (menus : SCMMenus) (e : IListContextMenuEvent)
  : ContextMenuDelegate :=
  let element := event_element e in
  let actions :=
    match element with
    | ResourceElement element => getResourceContextActions menus element
    | GroupElement element => getResourceGroupContextActions menus element
    end in
  {| getAnchor := event_anchor e;
     getActions := actions;
     getActionsContext := element;
     delegate_runAction := fun selected => ProviderPanel_runAction host selected |}.

(** ** SCMViewlet (lines 673-809) *)

(** The actions of the viewlet's secondary menu: what the menus contribute,
    separators, and the action of lines 658-671. *)
Inductive ViewletAction :=
| Contributed (action : IAction)
| Separator
| InstallAdditionalSCMProvidersAction.

Definition is_Separator (a : ViewletAction) : bool :=
  match a with
  | Separator => true
  | _ => false
  end.

(** getSecondaryActions (lines 776-795).  [titleSecondaryActions] is the
    array [this.menus.getTitleSecondaryActions()] returns; the pushes are
    made on that array, and it is what is returned. *)
Definition getSecondaryActions (titleSecondaryActions : list ViewletAction)
  : list ViewletAction :=
  let result := titleSecondaryActions in
  let result := if (0 <? length result)%nat then result ++ [Separator] else result in
  result ++ [InstallAdditionalSCMProvidersAction].

Definition isRepositoryVisible (repository : ISCMRepository) : bool := true.

Definition getOptimalWidth : Z := 400%Z.

(** ** What happens to a rendered provider panel

    The provider changes its commit template or its resource groups and
    fires the event; the extension sets the repository input; the user
    types; the panel is laid out. *)

Definition with_provider (prov : ISCMProvider) (p : ProviderPanel) : ProviderPanel :=
  {| repository := {| repository_provider := prov; input := input (repository p) |};
     cachedHeight := cachedHeight p;
     inputBox_value := inputBox_value p;
     inputBound := inputBound p;
     commitTemplateListener := commitTemplateListener p;
     resourcesListener := resourcesListener p;
     inputBoxContainer_scroll := inputBoxContainer_scroll p;
     listContainer_height := listContainer_height p;
     list_layout := list_layout p;
     list_elements := list_elements p |}.

Definition provider_with_commitTemplate (template : option string) (prov : ISCMProvider)
  : ISCMProvider :=
  {| provider_ref := provider_ref prov;
     rootUri := rootUri prov;
     provider_resources := provider_resources prov;
     commitTemplate := template;
     acceptInputCommand := acceptInputCommand prov;
     statusBarCommands := statusBarCommands prov;
     onDidChangeCommitTemplate := onDidChangeCommitTemplate prov |}.

Definition provider_with_resources (groups : list ISCMResourceGroup) (prov : ISCMProvider)
  : ISCMProvider :=
  {| provider_ref := provider_ref prov;
     rootUri := rootUri prov;
     provider_resources := groups;
     commitTemplate := commitTemplate prov;
     acceptInputCommand := acceptInputCommand prov;
     statusBarCommands := statusBarCommands prov;
     onDidChangeCommitTemplate := onDidChangeCommitTemplate prov |}.

Inductive PanelEvent :=
| UserTypes (text : string)
| InputSet (text : string)
| CommitTemplateChanged (template : option string)
| ResourcesChanged (groups : list ISCMResourceGroup)
| Layout (height : option Z) (editorHeight : Z).

Definition panel_step (p : ProviderPanel) (e : PanelEvent) : ProviderPanel :=
  match e with
  | UserTypes text => user_types text p
  | InputSet text => input_set_value text p
  | CommitTemplateChanged template =>
      fire_onDidChangeCommitTemplate
        (with_provider
           (provider_with_commitTemplate template (repository_provider (repository p))) p)
  | ResourcesChanged groups =>
      fire_onDidChangeResources
        (with_provider
           (provider_with_resources groups (repository_provider (repository p))) p)
  | Layout height editorHeight => layoutBody height editorHeight p
  end.

Definition panel_run (events : list PanelEvent) (p : ProviderPanel) : ProviderPanel :=
  fold_left panel_step events p.

(** What holds of a provider panel once its body is rendered: both
    bindings of the input are in place, the panel listens to resource
    changes, the view and the repository input hold the same text, and the
    list shows the provider's groups. *)
Definition rendered (p : ProviderPanel) : Prop :=
  inputBound p = true
  /\ resourcesListener p = true
  /\ inputBox_value p = value (input (repository p))
  /\ list_elements p = flattened (provider_resources (repository_provider (repository p))).

(** The rows of a providers list, one above the other. *)
Definition rows_height (rows : list ISCMRepository) : Z :=
  fold_right (fun element total => (ProvidersListDelegate_getHeight element + total)%Z)
    0%Z rows.

(** The steps of [renderBody] that set up the panel, one by one. *)
Definition fresh_body (p : ProviderPanel) : ProviderPanel :=
  {| repository := repository p;
     cachedHeight := cachedHeight p;
     inputBox_value := "";
     inputBound := false;
     commitTemplateListener := false;
     resourcesListener := false;
     inputBoxContainer_scroll := false;
     listContainer_height := listContainer_height p;
     list_layout := list_layout p;
     list_elements := [] |}.

Definition bind_input (p : ProviderPanel) : ProviderPanel :=
  {| repository := repository p;
     cachedHeight := cachedHeight p;
     inputBox_value := inputBox_value p;
     inputBound := true;
     commitTemplateListener :=
       onDidChangeCommitTemplate (repository_provider (repository p));
     resourcesListener := resourcesListener p;
     inputBoxContainer_scroll := inputBoxContainer_scroll p;
     listContainer_height := listContainer_height p;
     list_layout := list_layout p;
     list_elements := list_elements p |}.

Definition listen_resources (p : ProviderPanel) : ProviderPanel :=
  {| repository := repository p;
     cachedHeight := cachedHeight p;
     inputBox_value := inputBox_value p;
     inputBound := inputBound p;
     commitTemplateListener := commitTemplateListener p;
     resourcesListener := true;
     inputBoxContainer_scroll := inputBoxContainer_scroll p;
     listContainer_height := listContainer_height p;
     list_layout := list_layout p;
     list_elements := list_elements p |}.

(** ** More sample data *)

Definition no_menus : SCMMenus :=
  {| getResourceGroupActions := fun _ => [];
     getResourceActions := fun _ => [];
     getResourceGroupContextActions := fun _ => [];
     getResourceContextActions := fun _ => [] |}.

Definition empty_group_template : ResourceGroupTemplate :=
  {| group_name_textContent := ""; group_count := 0;
     group_actionBar_context := None; group_actionBar_actions := [] |}.

Definition empty_resource_template : ResourceTemplate :=
  {| fileLabel_file := None; name_strikeThrough := false; element_faded := false;
     decorationIcon_backgroundImage := ""; decorationIcon_title := None;
     actionBar_context := None; actionBar_actions := [] |}.

Definition decorated (n : nat) (uri : string) (i : option string) (tip : option string)
  : ISCMResource :=
  {| oid := n; resourceGroup := working_tree;
     sourceUri := {| toString := uri |};
     decorations := {| strikeThrough := false; faded := false;
                       icon := i; iconDark := i; tooltip := tip |} |}.

(** ** The components of a key *)

Definition group_key (g : ISCMResourceGroup) : string * string :=
  (contextValue (provider (group_ref g)), group_id (group_ref g)).

Definition key_parts (e : ListElement) : string * string * option string :=
  match e with
  | ResourceElement r =>
      (contextValue (provider (resourceGroup r)), group_id (resourceGroup r),
       Some (toString (sourceUri r)))
  | GroupElement g => (group_key g, None)
  end.

(** Neither the provider context value nor the group id holds a "/". *)
Definition slash_free (e : ListElement) : bool :=
  no_slash (fst (fst (key_parts e))) && no_slash (snd (fst (key_parts e))).

(** * Properties *)

(** ** The list widget *)

Lemma splice_all {A : Type} (elements l : list A) :
  splice 0 (length l) elements l = elements.
Proof.
  unfold splice. simpl. rewrite skipn_all. apply app_nil_r.
Qed.

(** ** updateList *)

Lemma shown_spec (g : ISCMResourceGroup) :
  shown g = negb ((length (resources (resourceCollection g)) =? 0)%nat && hideWhenEmpty g).
Proof. unfold shown. now rewrite negb_andb. Qed.

Lemma reduce_flattened (groups : list ISCMResourceGroup) :
  forall r,
    fold_left
      (fun r g =>
         if (length (resources (resourceCollection g)) =? 0)%nat && hideWhenEmpty g
         then r
         else r ++ [GroupElement g] ++ map ResourceElement (resources (resourceCollection g)))
      groups r
    = r ++ flattened groups.
Proof.
  induction groups as [|g groups IH]; intros r; simpl.
  - now rewrite app_nil_r.
  - rewrite IH, shown_spec.
    destruct ((length (resources (resourceCollection g)) =? 0)%nat && hideWhenEmpty g);
      simpl; [reflexivity|].
    now rewrite <- app_assoc.
Qed.

Lemma updateList_elements (p : ProviderPanel) :
  list_elements (updateList p)
  = flattened (provider_resources (repository_provider (repository p))).
Proof.
  unfold updateList. simpl. rewrite splice_all.
  exact (reduce_flattened _ []).
Qed.

Lemma group_in_flattened (g : ISCMResourceGroup) (groups : list ISCMResourceGroup) :
  In (GroupElement g) (flattened groups) <-> In g groups /\ shown g = true.
Proof.
  induction groups as [|g' groups IH]; simpl.
  - tauto.
  - destruct (shown g') eqn:Hs.
    + simpl. rewrite in_app_iff, IH. split.
      * intros [Heq | [Hin | [Hin Hg]]].
        -- injection Heq as ->. auto.
        -- apply in_map_iff in Hin. destruct Hin as [r [Hr _]]. discriminate.
        -- auto.
      * intros [[-> | Hin] Hg]; auto.
    + rewrite IH. split.
      * intros [Hin Hg]; auto.
      * intros [[-> | Hin] Hg]; [congruence | auto].
Qed.

Lemma flattened_flat_map (groups : list ISCMResourceGroup) :
  flattened groups
  = flat_map
      (fun g => GroupElement g :: map ResourceElement (resources (resourceCollection g)))
      (filter shown groups).
Proof.
  induction groups as [|g groups IH]; simpl; [reflexivity|].
  destruct (shown g); simpl; now rewrite IH.
Qed.

(** C1.  After [updateList] the list holds, in provider order, exactly the
    groups whose resource count is non-zero or whose [hideWhenEmpty] flag is
    false, each immediately followed by its resources in order; a group of
    the provider that has resources is in the list, and a group of the
    provider without resources is in the list if and only if its
    [hideWhenEmpty] flag is false. *)
Theorem updateList_flattens (p : ProviderPanel) :
  let groups := provider_resources (repository_provider (repository p)) in
  let elements := list_elements (updateList p) in
  elements
  = flat_map
      (fun g => GroupElement g :: map ResourceElement (resources (resourceCollection g)))
      (filter
         (fun g => negb (length (resources (resourceCollection g)) =? 0)%nat
                   || negb (hideWhenEmpty g))
         groups)
  /\ (forall g, In g groups -> resources (resourceCollection g) <> [] ->
                In (GroupElement g) elements)
  /\ (forall g, In g groups -> resources (resourceCollection g) = [] ->
                (In (GroupElement g) elements <-> hideWhenEmpty g = false))
  /\ (forall g, In (GroupElement g) elements -> In g groups).
Proof.
  intros groups elements. subst elements. rewrite updateList_elements. fold groups.
  split; [apply flattened_flat_map|].
  split; [|split].
  - intros g Hin Hne. apply group_in_flattened. split; [assumption|].
    unfold shown. destruct (resources (resourceCollection g)); [congruence | reflexivity].
  - intros g Hin Hnil. rewrite group_in_flattened. unfold shown. rewrite Hnil. simpl.
    destruct (hideWhenEmpty g); simpl; split; try tauto; try congruence.
    intros [_ H]; discriminate.
  - intros g Hin. now apply group_in_flattened in Hin.
Qed.

Lemma updateList_flattens_witness :
  list_elements (updateList (panel_of (git_provider None None) ""))
  = [GroupElement index_group; GroupElement working_tree_group;
     ResourceElement a_ts; ResourceElement b_ts]
  /\ In (GroupElement index_group)
        (list_elements (updateList (panel_of (git_provider None None) ""))).
Proof.
  split.
  - exact (proj1 (updateList_flattens (panel_of (git_provider None None) ""))).
  - apply (proj1 (proj2 (proj2 (updateList_flattens (panel_of (git_provider None None) ""))))
             index_group).
    + simpl. auto.
    + reflexivity.
    + reflexivity.
Defined.

(** ** identityProvider *)

Lemma append_slash_inj (a b x y : string) :
  no_slash a = true -> no_slash b = true ->
  (a ++ "/" ++ x)%string = (b ++ "/" ++ y)%string ->
  a = b /\ x = y.
Proof.
  revert b. induction a as [|c a IH]; intros [|d b] Ha Hb H; simpl in *.
  - injection H as ->. auto.
  - injection H as <- _. discriminate.
  - injection H as -> _. discriminate.
  - injection H as -> H.
    apply andb_true_iff in Ha, Hb. destruct Ha as [_ Ha], Hb as [_ Hb].
    destruct (IH b Ha Hb H) as [-> ->]. auto.
Qed.

(** C2, as far as it fails: two resources that differ in provider context
    value and in group id have the same key. *)
Lemma identityProvider_key_collision :
  identityProvider (ResourceElement slash_in_context)
  = identityProvider (ResourceElement slash_in_group)
  /\ contextValue (provider (resourceGroup slash_in_context))
     <> contextValue (provider (resourceGroup slash_in_group))
  /\ group_id (resourceGroup slash_in_context)
     <> group_id (resourceGroup slash_in_group).
Proof.
  split; [reflexivity|]. split; simpl; discriminate.
Qed.

(** C2, amended.  The key of a resource is
    [contextValue/groupId/resourceLocation] and the key of a group is
    [contextValue/groupId]; the resource ("git", "working-tree",
    "file:///a.ts") has the key "git/working-tree/file:///a.ts" at every
    call; and two resources with equal keys agree on all three components
    provided that no provider context value and no group id among them
    contains the separator "/". *)
Theorem identityProvider_key :
  (forall r,
      identityProvider (ResourceElement r)
      = (contextValue (provider (resourceGroup r)) ++ "/"
           ++ group_id (resourceGroup r) ++ "/" ++ toString (sourceUri r))%string)
  /\ (forall g,
         identityProvider (GroupElement g)
         = (contextValue (provider (group_ref g)) ++ "/" ++ group_id (group_ref g))%string)
  /\ (forall r,
         contextValue (provider (resourceGroup r)) = "git" ->
         group_id (resourceGroup r) = "working-tree" ->
         toString (sourceUri r) = "file:///a.ts" ->
         identityProvider (ResourceElement r) = "git/working-tree/file:///a.ts")
  /\ (forall r1 r2,
         no_slash (contextValue (provider (resourceGroup r1))) = true ->
         no_slash (group_id (resourceGroup r1)) = true ->
         no_slash (contextValue (provider (resourceGroup r2))) = true ->
         no_slash (group_id (resourceGroup r2)) = true ->
         identityProvider (ResourceElement r1) = identityProvider (ResourceElement r2) ->
         contextValue (provider (resourceGroup r1))
         = contextValue (provider (resourceGroup r2))
         /\ group_id (resourceGroup r1) = group_id (resourceGroup r2)
         /\ toString (sourceUri r1) = toString (sourceUri r2)).
Proof.
  split; [reflexivity|]. split; [reflexivity|]. split.
  - intros r Hc Hg Hu. simpl. now rewrite Hc, Hg, Hu.
  - intros r1 r2 Hc1 Hg1 Hc2 Hg2 H. simpl in H.
    apply append_slash_inj in H; try assumption. destruct H as [Hc H].
    apply append_slash_inj in H; try assumption. tauto.
Qed.

Lemma identityProvider_key_witness :
  identityProvider (ResourceElement a_ts) = "git/working-tree/file:///a.ts"
  /\ (contextValue (provider (resourceGroup a_ts))
      = contextValue (provider (resourceGroup (file 7 "file:///a.ts")))
      /\ group_id (resourceGroup a_ts) = group_id (resourceGroup (file 7 "file:///a.ts"))
      /\ toString (sourceUri a_ts) = toString (sourceUri (file 7 "file:///a.ts"))).
Proof.
  split.
  - apply (proj1 (proj2 (proj2 identityProvider_key)) a_ts); reflexivity.
  - apply (proj2 (proj2 (proj2 identityProvider_key)) a_ts (file 7 "file:///a.ts"));
      reflexivity.
Defined.

(** ** MultipleSelectionActionRunner *)

Lemma strict_neq_true (a b : ListElement) : strict_neq a b = true <-> a <> b.
Proof.
  unfold strict_neq. destruct (ListElement_eq_dec a b); split; congruence.
Qed.

Lemma strict_neq_refl (a : ListElement) : strict_neq a a = false.
Proof.
  unfold strict_neq. destruct (ListElement_eq_dec a a); congruence.
Qed.

(** Filtering with [s !== context] is removing [context]. *)
Lemma filter_strict_neq_remove (context : ListElement) (selection : list ListElement) :
  filter (fun s => strict_neq s context) selection
  = remove ListElement_eq_dec context selection.
Proof.
  induction selection as [|s selection IH]; simpl; [reflexivity|].
  unfold strict_neq at 1.
  destruct (ListElement_eq_dec s context) as [Heq|Hne],
           (ListElement_eq_dec context s) as [Heq'|Hne']; congruence.
Qed.

Lemma filter_member_shorter (context : ListElement) (selection : list ListElement) :
  In context selection ->
  length (filter (fun s => strict_neq s context) selection) < length selection.
Proof.
  induction selection as [|s selection IH]; simpl; [tauto|].
  intros [-> | Hin].
  - rewrite strict_neq_refl.
    pose proof (filter_length_le (fun s => strict_neq s context) selection). lia.
  - specialize (IH Hin). destruct (strict_neq s context); simpl; lia.
Qed.

Lemma filter_stranger_same (context : ListElement) (selection : list ListElement) :
  ~ In context selection ->
  filter (fun s => strict_neq s context) selection = selection.
Proof.
  induction selection as [|s selection IH]; simpl; [reflexivity|].
  intros Hnot.
  assert (Hs : strict_neq s context = true) by (apply strict_neq_true; intuition).
  rewrite Hs, IH; [reflexivity | intuition].
Qed.

Section Runner.

Variable host : Host.
(* the closure the runner is constructed with *)
Variable getSelectedResources : unit -> list ListElement.

(** C3.  For a menu-item action, a context resource and a selection of at
    least two elements that contains it, [runAction] makes exactly one call,
    [action.run], with the context resource first and then the selection
    without the context resource, in the selection's order. *)
Theorem runAction_fans_out (id : string) (context : ISCMResource) :
  let selection := getSelectedResources tt in
  let action := MenuItemAction id in
  let args :=
    ResourceElement context
      :: remove ListElement_eq_dec (ResourceElement context) selection in
  In (ResourceElement context) selection ->
  2 <= length selection ->
  runAction host getSelectedResources action (ResourceElement context)
  = (action_run host action args, [ActionRun action args]).
Proof.
  intros selection action args Hin Hlen. subst args. unfold runAction. simpl.
  fold selection. rewrite <- filter_strict_neq_remove.
  pose proof (filter_member_shorter _ _ Hin) as Hlt.
  destruct (Nat.eqb_spec (length selection)
              (length (filter (fun s => strict_neq s (ResourceElement context)) selection)));
    [lia|].
  destruct (Nat.eqb_spec (length selection) 1); [lia|].
  reflexivity.
Qed.

(** C4.  For a menu-item action and a context resource, when the selection
    is empty, is a singleton or does not contain the context resource,
    [runAction] makes exactly one call, [action.run], with the context
    resource as its only argument. *)
Theorem runAction_single_target (id : string) (context : ISCMResource) :
  let selection := getSelectedResources tt in
  let action := MenuItemAction id in
  selection = [] \/ length selection = 1 \/ ~ In (ResourceElement context) selection ->
  runAction host getSelectedResources action (ResourceElement context)
  = (action_run host action [ResourceElement context],
     [ActionRun action [ResourceElement context]]).
Proof.
  intros selection action H. unfold runAction. simpl. fold selection.
  assert (Hcond :
    (length selection
       =? length (filter (fun s => strict_neq s (ResourceElement context)) selection))%nat
    || (length selection =? 1)%nat = true).
  { apply orb_true_iff. destruct H as [H | [H | H]].
    - left. rewrite H. reflexivity.
    - right. now apply Nat.eqb_eq.
    - left. rewrite filter_stranger_same by assumption. apply Nat.eqb_refl. }
  now rewrite Hcond.
Qed.

End Runner.

Lemma runAction_fans_out_witness :
  runAction quiet_host
    (fun _ => [ResourceElement a_ts; ResourceElement b_ts; ResourceElement c_ts])
    (MenuItemAction "git.stage") (ResourceElement b_ts)
  = (Fulfilled,
     [ActionRun (MenuItemAction "git.stage")
        [ResourceElement b_ts; ResourceElement a_ts; ResourceElement c_ts]]).
Proof.
  apply (runAction_fans_out quiet_host
           (fun _ => [ResourceElement a_ts; ResourceElement b_ts; ResourceElement c_ts])
           "git.stage" b_ts).
  - simpl. auto.
  - simpl. lia.
Defined.

Lemma runAction_single_target_witness :
  runAction quiet_host
    (fun _ => [ResourceElement a_ts; ResourceElement b_ts; ResourceElement c_ts])
    (MenuItemAction "git.stage") (ResourceElement d_ts)
  = (Fulfilled, [ActionRun (MenuItemAction "git.stage") [ResourceElement d_ts]]).
Proof.
  apply (runAction_single_target quiet_host
           (fun _ => [ResourceElement a_ts; ResourceElement b_ts; ResourceElement c_ts])
           "git.stage" d_ts).
  right. right. simpl. intros [H | [H | [H | []]]]; discriminate.
Defined.

(** ** The selection collector *)

Lemma getSelectedResources_resources (selected : list ListElement) :
  Forall (fun e => isSCMResource e = true) (getSelectedResources selected).
Proof.
  unfold getSelectedResources. apply Forall_forall. intros e He.
  now apply filter_In in He.
Qed.

Lemma remove_Forall {A : Type} (eq_dec : forall x y : A, {x = y} + {x <> y})
  (P : A -> Prop) (x : A) (l : list A) :
  Forall P l -> Forall P (remove eq_dec x l).
Proof.
  intros H. apply Forall_forall. intros y Hy.
  apply in_remove in Hy. destruct Hy as [Hy _].
  revert y Hy. now apply Forall_forall.
Qed.

(** C10.  Whatever the list widget reports as selected, the selection
    collector returns resources only, no group row among them; hence the
    arguments that the panel's runner passes to a menu-item action after the
    context element are resources, never groups. *)
Theorem getSelectedResources_only_resources (selected : list ListElement) :
  Forall (fun e => isSCMResource e = true) (getSelectedResources selected)
  /\ (forall g, ~ In (GroupElement g) (getSelectedResources selected))
  /\ (forall r, In (ResourceElement r) (getSelectedResources selected)
                <-> In (ResourceElement r) selected)
  /\ (forall host id context,
         exists trailing,
           snd (ProviderPanel_runAction host selected (MenuItemAction id) context)
           = [ActionRun (MenuItemAction id) (context :: trailing)]
           /\ Forall (fun e => isSCMResource e = true) trailing
           /\ (forall g, ~ In (GroupElement g) trailing)).
Proof.
  pose proof (getSelectedResources_resources selected) as Hres.
  assert (Hgroup : forall l, Forall (fun e => isSCMResource e = true) l ->
                             forall g, ~ In (GroupElement g) l).
  { intros l Hl g Hin. rewrite Forall_forall in Hl.
    specialize (Hl _ Hin). discriminate. }
  split; [assumption|]. split; [now apply Hgroup|]. split.
  - intros r. unfold getSelectedResources. rewrite filter_In. simpl. tauto.
  - intros host id context. unfold ProviderPanel_runAction, runAction.
    rewrite filter_strict_neq_remove.
    destruct ((length (getSelectedResources selected)
                 =? length (remove ListElement_eq_dec context
                              (getSelectedResources selected)))%nat
              || (length (getSelectedResources selected) =? 1)%nat).
    + exists []. simpl. split; [reflexivity|]. split; [constructor | tauto].
    + exists (remove ListElement_eq_dec context (getSelectedResources selected)).
      simpl. split; [reflexivity|].
      assert (Forall (fun e => isSCMResource e = true)
                (remove ListElement_eq_dec context (getSelectedResources selected)))
        by now apply remove_Forall.
      split; [assumption | now apply Hgroup].
Qed.

(** ** ProvidersPanel *)

(** C8.  On a repository-added and on a repository-removed event the
    providers panel's list is spliced over its whole length with the
    registry's repositories, so that it holds exactly them, and minimum and
    maximum body size both become min(5, count) * 22, 22 being the height
    [ProvidersListDelegate.getHeight] gives every row. *)
Theorem ProvidersPanel_update_on_events (scmService : ISCMService)
  (repository : ISCMRepository) (p : ProvidersPanel) :
  let count := Z.of_nat (length (repositories scmService)) in
  let added := ProvidersPanel_onDidAddRepository scmService repository p in
  let removed := ProvidersPanel_onDidRemoveRepository scmService repository p in
  (providers_list added
   = splice 0 (length (providers_list p)) (repositories scmService) (providers_list p)
   /\ providers_list added = repositories scmService
   /\ minimumBodySize added = (Z.min 5 count * 22)%Z
   /\ maximumBodySize added = (Z.min 5 count * 22)%Z)
  /\ (providers_list removed
      = splice 0 (length (providers_list p)) (repositories scmService) (providers_list p)
      /\ providers_list removed = repositories scmService
      /\ minimumBodySize removed = (Z.min 5 count * 22)%Z
      /\ maximumBodySize removed = (Z.min 5 count * 22)%Z)
  /\ (forall element, ProvidersListDelegate_getHeight element = 22%Z).
Proof.
  intros count added removed. subst added removed count.
  unfold ProvidersPanel_onDidAddRepository, ProvidersPanel_onDidRemoveRepository,
    ProvidersPanel_update, ProvidersPanel_updateBodySize. simpl.
  rewrite splice_all. repeat split; reflexivity.
Qed.

(** ** layoutBody *)

(** C9.  Laid out at total height [h] with the input reporting height [e],
    the panel gives the list container the height [h - (e + 12)]; at 300
    and 50 that is 238. *)
Theorem layoutBody_list_height (h e : Z) (p : ProviderPanel) :
  listContainer_height (layoutBody (Some h) e p) = Num (h - (e + 12))
  /\ list_layout (layoutBody (Some h) e p) = Num (h - (e + 12))
  /\ listContainer_height (layoutBody (Some 300%Z) 50 p) = Num 238.
Proof.
  repeat split; reflexivity.
Qed.

Lemma layoutBody_cached (h e : Z) (p : ProviderPanel) :
  cachedHeight p = Some h ->
  listContainer_height (layoutBody None e p) = Num (h - (e + 12)).
Proof.
  intros H. unfold layoutBody. rewrite H. reflexivity.
Qed.

(** ** The commit input *)

Lemma inputBox_set_value_sets (v : string) (p : ProviderPanel) :
  inputBox_value (inputBox_set_value v p) = v.
Proof.
  unfold inputBox_set_value, input_set_value.
  destruct (String.eqb_spec (inputBox_value p) v) as [Heq|Hne]; [assumption|].
  simpl. destruct (inputBound p); reflexivity.
Qed.

Lemma inputBox_set_value_provider (v : string) (p : ProviderPanel) :
  repository_provider (repository (inputBox_set_value v p))
  = repository_provider (repository p).
Proof.
  unfold inputBox_set_value, input_set_value.
  destruct (String.eqb (inputBox_value p) v); [reflexivity|].
  simpl. destruct (inputBound p); reflexivity.
Qed.

Lemma inputBox_set_value_listener (v : string) (p : ProviderPanel) :
  commitTemplateListener (inputBox_set_value v p) = commitTemplateListener p.
Proof.
  unfold inputBox_set_value, input_set_value.
  destruct (String.eqb (inputBox_value p) v); [reflexivity|].
  simpl. destruct (inputBound p); reflexivity.
Qed.

Lemma updateList_inputBox_value (p : ProviderPanel) :
  inputBox_value (updateList p) = inputBox_value p.
Proof. reflexivity. Qed.

Lemma renderBody_subscribes (p : ProviderPanel) :
  commitTemplateListener (renderBody p)
  = onDidChangeCommitTemplate (repository_provider (repository p)).
Proof.
  unfold renderBody, updateList, updateInputBox. cbn -[inputBox_set_value].
  rewrite !inputBox_set_value_provider. cbn -[inputBox_set_value].
  destruct (commitTemplate (repository_provider (repository p)));
    [rewrite inputBox_set_value_listener|]; cbn -[inputBox_set_value];
    rewrite ?inputBox_set_value_provider; reflexivity.
Qed.

(** C5, as far as it fails: the panel is rendered for a provider that has no
    commit template, the user types a message, the provider fires "commit
    template changed"; the message is still in the input. *)
Lemma commit_template_event_keeps_input :
  let p := user_types "wip" (renderBody (panel_of (git_provider None None) "")) in
  commitTemplateListener p = true
  /\ inputBox_value p = "wip"
  /\ inputBox_value (fire_onDidChangeCommitTemplate p) = "wip"
  /\ Some (inputBox_value (fire_onDidChangeCommitTemplate p))
     <> commitTemplate (repository_provider (repository p)).
Proof.
  cbv zeta. repeat split; try reflexivity. discriminate.
Qed.

(** C5, amended.  When the provider fires "commit template changed" on a
    subscribed panel and its current commit template is defined, the input
    value becomes that template whatever the input held, also right after
    the user typed into it; when the current commit template is undefined
    the panel is left as it is. *)
Theorem commit_template_event_overwrites (p : ProviderPanel) :
  commitTemplateListener p = true ->
  (forall template,
      commitTemplate (repository_provider (repository p)) = Some template ->
      inputBox_value (fire_onDidChangeCommitTemplate p) = template
      /\ forall edits,
           inputBox_value (fire_onDidChangeCommitTemplate (user_types edits p)) = template)
  /\ (commitTemplate (repository_provider (repository p)) = None ->
      fire_onDidChangeCommitTemplate p = p).
Proof.
  intros Hsub. split.
  - intros template Ht. split.
    + unfold fire_onDidChangeCommitTemplate, updateInputBox. rewrite Hsub, Ht.
      apply inputBox_set_value_sets.
    + intros edits. unfold fire_onDidChangeCommitTemplate, updateInputBox, user_types.
      rewrite inputBox_set_value_listener, Hsub, inputBox_set_value_provider, Ht.
      apply inputBox_set_value_sets.
  - intros Hnone. unfold fire_onDidChangeCommitTemplate, updateInputBox.
    now rewrite Hsub, Hnone.
Qed.

Lemma commit_template_event_overwrites_witness :
  inputBox_value
    (fire_onDidChangeCommitTemplate
       (user_types "wip"
          (renderBody (panel_of (git_provider (Some "feat: ") None) ""))))
  = "feat: ".
Proof.
  apply (proj2 (proj1 (commit_template_event_overwrites
                         (renderBody (panel_of (git_provider (Some "feat: ") None) ""))
                         eq_refl)
                  "feat: " eq_refl)
           "wip").
Defined.

(** C6, as far as it fails: rendered for a provider without commit template
    while the repository input holds a message, the commit input shows that
    message, not the empty string. *)
Lemma renderBody_keeps_repository_input :
  commitTemplate (repository_provider
                    (repository (panel_of (git_provider None None) "wip"))) = None
  /\ inputBox_value (renderBody (panel_of (git_provider None None) "wip")) = "wip"
  /\ inputBox_value (renderBody (panel_of (git_provider None None) "wip")) <> "".
Proof.
  repeat split; try reflexivity. discriminate.
Qed.

(** C6, amended.  Right after the panel body is rendered, the commit input's
    value is the provider's current commit template when the provider
    defines one, and the repository input's value otherwise. *)
Theorem renderBody_input_value (p : ProviderPanel) :
  inputBox_value (renderBody p)
  = match commitTemplate (repository_provider (repository p)) with
    | Some template => template
    | None => value (input (repository p))
    end.
Proof.
  unfold renderBody. rewrite updateList_inputBox_value.
  unfold updateInputBox. cbn -[inputBox_set_value].
  rewrite !inputBox_set_value_provider. cbn -[inputBox_set_value].
  destruct (commitTemplate (repository_provider (repository p))) as [template|].
  - cbn -[inputBox_set_value].
    match goal with |- inputBox_value (inputBox_set_value _ ?q) = _ =>
      apply (inputBox_set_value_sets template q) end.
  - cbn -[inputBox_set_value]. apply inputBox_set_value_sets.
Qed.

(** ** onDidAcceptInput *)

Lemma done_no_command (handler : string -> Event) (promise : TPromise) :
  (forall err, is_ExecuteCommand (handler err) = false) ->
  filter is_ExecuteCommand (done_ handler promise) = [].
Proof.
  intros H. destruct promise as [|err]; simpl; [reflexivity|]. now rewrite H.
Qed.

(** C7.  "Accept input" calls the command service if and only if the
    provider declares an accept-input command; it then calls it once, with
    the declared command id and the declared arguments; without a declared
    command nothing is called; the panel is unchanged either way; and when
    the call fails the error goes to the unexpected-error reporter and no
    message is shown. *)
Theorem onDidAcceptInput_dispatch (host : Host) (p : ProviderPanel) :
  let declared := acceptInputCommand (repository_provider (repository p)) in
  let calls := snd (onDidAcceptInput host p) in
  fst (onDidAcceptInput host p) = p
  /\ ((exists id args, In (ExecuteCommand id args) calls) <-> declared <> None)
  /\ (forall command, declared = Some command ->
        filter is_ExecuteCommand calls
        = [ExecuteCommand (command_id command) (arguments command)])
  /\ (declared = None -> onDidAcceptInput host p = (p, []))
  /\ (forall command err, declared = Some command ->
        executeCommand host (command_id command) (arguments command) = Rejected err ->
        calls = [ExecuteCommand (command_id command) (arguments command);
                 OnUnexpectedError err])
  /\ (forall command, declared = Some command ->
        executeCommand host (command_id command) (arguments command) = Fulfilled ->
        calls = [ExecuteCommand (command_id command) (arguments command)])
  /\ filter is_MessageShowError calls = [].
Proof.
  intros declared calls. subst declared calls. unfold onDidAcceptInput.
  destruct (acceptInputCommand (repository_provider (repository p))) as [command|];
    simpl.
  - split; [reflexivity|]. split.
    { split; [discriminate|]. intros _. eauto. }
    split.
    { intros c [= <-]. now rewrite done_no_command. }
    split; [discriminate|]. split.
    { intros c err [= <-] Herr. now rewrite Herr. }
    split.
    { intros c [= <-] Hok. now rewrite Hok. }
    destruct (executeCommand host (command_id command) (arguments command)); reflexivity.
  - split; [reflexivity|]. split.
    { split; [intros [id [args []]] | congruence]. }
    repeat split; try discriminate; reflexivity.
Qed.

Lemma onDidAcceptInput_dispatch_witness :
  snd (onDidAcceptInput failing_host (panel_of (git_provider None (Some git_commit)) "fix"))
  = [ExecuteCommand "git.commitWithInput" [AnyUri {| toString := "file:///repo" |}];
     OnUnexpectedError "no repository"]
  /\ onDidAcceptInput failing_host (panel_of (git_provider None None) "fix")
     = (panel_of (git_provider None None) "fix", []).
Proof.
  split.
  - apply (proj1 (proj2 (proj2 (proj2 (proj2
             (onDidAcceptInput_dispatch failing_host
                (panel_of (git_provider None (Some git_commit)) "fix"))))))
             git_commit "no repository"); reflexivity.
  - apply (proj1 (proj2 (proj2 (proj2
             (onDidAcceptInput_dispatch failing_host
                (panel_of (git_provider None None) "fix")))))).
    reflexivity.
Defined.

(** ** Runs on the sample data *)

Example splice_middle : splice 1 2 [7; 8] [1; 2; 3; 4] = [1; 7; 8; 4].
Proof. reflexivity. Qed.

Example identityProvider_group :
  identityProvider (GroupElement working_tree_group) = "git/working-tree".
Proof. reflexivity. Qed.

(** A context menu opened on a group row: the group is the only argument. *)
Example runAction_on_group :
  ProviderPanel_runAction quiet_host
    [GroupElement index_group; ResourceElement a_ts; ResourceElement b_ts]
    (MenuItemAction "git.stageAll") (GroupElement index_group)
  = (Fulfilled, [ActionRun (MenuItemAction "git.stageAll") [GroupElement index_group]]).
Proof. reflexivity. Qed.

(** The selection is the context alone. *)
Example runAction_singleton :
  snd (runAction quiet_host (fun _ => [ResourceElement a_ts])
         (MenuItemAction "git.stage") (ResourceElement a_ts))
  = [ActionRun (MenuItemAction "git.stage") [ResourceElement a_ts]].
Proof. reflexivity. Qed.

(** Two distinct objects with the same fields are different selections. *)
Example runAction_distinct_objects :
  snd (runAction quiet_host
         (fun _ => [ResourceElement a_ts; ResourceElement (file 9 "file:///a.ts")])
         (MenuItemAction "git.stage") (ResourceElement a_ts))
  = [ActionRun (MenuItemAction "git.stage")
       [ResourceElement a_ts; ResourceElement (file 9 "file:///a.ts")]].
Proof. reflexivity. Qed.

(** An input-height change before the first layout: no height is cached,
    the guard does not stop the call, and the list height is not a number. *)
Example layoutBody_before_first_layout :
  listContainer_height (layoutBody None 50 (panel_of (git_provider None None) "")) = NaN.
Proof. reflexivity. Qed.

Example layoutBody_scrolls :
  inputBoxContainer_scroll (layoutBody (Some 300%Z) 134 (panel_of (git_provider None None) ""))
  = true.
Proof. reflexivity. Qed.

(** The view and the repository input stay in step once bound. *)
Example user_types_reaches_repository :
  value (input (repository
                  (user_types "feat: x" (renderBody (panel_of (git_provider None None) "")))))
  = "feat: x".
Proof. reflexivity. Qed.

Example ProvidersPanel_five_rows_at_most :
  minimumBodySize
    (ProvidersPanel_new
       {| repositories :=
            repeat {| repository_provider := git_provider None None;
                      input := {| value := "" |} |} 7 |})
  = 110%Z.
Proof. reflexivity. Qed.

(** * Further properties *)

(** ** The flattened list *)

Lemma updateList_replaces (p : ProviderPanel) :
  updateList p
  = with_list_elements
      (flattened (provider_resources (repository_provider (repository p)))) p.
Proof.
  unfold updateList. rewrite splice_all. f_equal. exact (reduce_flattened _ []).
Qed.

Lemma resource_in_flattened (r : ISCMResource) (groups : list ISCMResourceGroup) :
  In (ResourceElement r) (flattened groups)
  <-> exists g, In g groups /\ In r (resources (resourceCollection g)).
Proof.
  induction groups as [|g groups IH]; simpl.
  - split; [tauto | intros [g [[] _]]].
  - destruct (shown g) eqn:Hs.
    + simpl. rewrite in_app_iff, IH, in_map_iff. split.
      * intros [H | [[r' [[= ->] Hr]] | [g' [Hg Hr]]]]; [discriminate | eauto | eauto].
      * intros [g' [[<- | Hg] Hr]]; [right; left; eauto | right; right; eauto].
    + rewrite IH. split.
      * intros [g' [Hg Hr]]. eauto.
      * intros [g' [[<- | Hg] Hr]]; [|eauto].
        unfold shown in Hs. destruct (resources (resourceCollection g)); [destruct Hr|].
        discriminate.
Qed.

(** X1.  No resource of the provider is missing from the list, and the list shows
    no resource the provider does not have: hiding a group never hides a
    resource. *)
Theorem updateList_shows_every_resource (p : ProviderPanel) (r : ISCMResource) :
  In (ResourceElement r) (list_elements (updateList p))
  <-> exists g, In g (provider_resources (repository_provider (repository p)))
                /\ In r (resources (resourceCollection g)).
Proof.
  rewrite updateList_elements. apply resource_in_flattened.
Qed.

Lemma badge_total_app (scmMenus : SCMMenus) (template : ResourceGroupTemplate)
  (l1 l2 : list ListElement) :
  badge_total scmMenus template (l1 ++ l2)
  = badge_total scmMenus template l1 + badge_total scmMenus template l2.
Proof.
  unfold badge_total. now rewrite map_app, list_sum_app.
Qed.

Lemma badge_total_resources (scmMenus : SCMMenus) (template : ResourceGroupTemplate)
  (rs : list ISCMResource) :
  badge_total scmMenus template (map ResourceElement rs) = 0.
Proof.
  induction rs as [|r rs IH]; [reflexivity | exact IH].
Qed.

Lemma badge_total_group (scmMenus : SCMMenus) (template : ResourceGroupTemplate)
  (g : ISCMResourceGroup) (l : list ListElement) :
  badge_total scmMenus template (GroupElement g :: l)
  = length (resources (resourceCollection g)) + badge_total scmMenus template l.
Proof. reflexivity. Qed.

Lemma filter_resources_only (rs : list ISCMResource) :
  filter isSCMResource (map ResourceElement rs) = map ResourceElement rs
  /\ filter (fun e => negb (isSCMResource e)) (map ResourceElement rs) = [].
Proof.
  induction rs as [|r rs [IH1 IH2]]; simpl; [auto|]. now rewrite IH1.
Qed.

Lemma flattened_counts (scmMenus : SCMMenus) (template : ResourceGroupTemplate)
  (groups : list ISCMResourceGroup) :
  length (filter isSCMResource (flattened groups))
  = list_sum (map (fun g => length (resources (resourceCollection g))) groups)
  /\ length (filter (fun e => negb (isSCMResource e)) (flattened groups))
     = length (filter shown groups)
  /\ badge_total scmMenus template (flattened groups)
     = list_sum (map (fun g => length (resources (resourceCollection g))) groups).
Proof.
  induction groups as [|g groups [IH1 [IH2 IH3]]]; [simpl; auto|].
  cbn [flattened map list_sum filter].
  destruct (shown g) eqn:Hs.
  - rewrite badge_total_group, badge_total_app, badge_total_resources, IH3.
    cbn [filter isSCMResource negb].
    destruct (filter_resources_only (resources (resourceCollection g))) as [F1 F2].
    rewrite !filter_app, F1, F2, length_app, length_map, IH1.
    cbn [app length]. rewrite IH2. auto.
  - unfold shown in Hs. destruct (resources (resourceCollection g)); [|discriminate].
    cbn [length Nat.add]. auto.
Qed.

(** X2.  The list has one resource row per resource of the provider and one group
    row per group that is not hidden; the counts on the badges of the group
    rows add up to the number of resource rows. *)
Theorem updateList_counts (scmMenus : SCMMenus) (template : ResourceGroupTemplate)
  (p : ProviderPanel) :
  let groups := provider_resources (repository_provider (repository p)) in
  let elements := list_elements (updateList p) in
  let total := list_sum (map (fun g => length (resources (resourceCollection g))) groups) in
  length (filter isSCMResource elements) = total
  /\ length (filter (fun e => negb (isSCMResource e)) elements)
     = length (filter (fun g => negb (length (resources (resourceCollection g)) =? 0)%nat
                                || negb (hideWhenEmpty g)) groups)
  /\ badge_total scmMenus template elements = length (filter isSCMResource elements).
Proof.
  intros groups elements total. subst elements total. rewrite updateList_elements.
  fold groups. destruct (flattened_counts scmMenus template groups) as [H1 [H2 H3]].
  rewrite H1, H3. auto.
Qed.

(** X3.  [updateList] is a full replace: what the list held before does not
    matter, nothing but the list content changes, and a second update
    without a change of the provider changes nothing. *)
Theorem updateList_full_replace (p : ProviderPanel) (previous : list ListElement) :
  list_elements (updateList (with_list_elements previous p)) = list_elements (updateList p)
  /\ updateList (updateList p) = updateList p
  /\ repository (updateList p) = repository p
  /\ inputBox_value (updateList p) = inputBox_value p
  /\ cachedHeight (updateList p) = cachedHeight p
  /\ listContainer_height (updateList p) = listContainer_height p.
Proof.
  rewrite !updateList_replaces. repeat split; reflexivity.
Qed.

(** ** Keys of the rows of a list *)

Lemma no_slash_append_slash (a b : string) : no_slash (a ++ "/" ++ b)%string = false.
Proof.
  induction a as [|c a IH]; [reflexivity|].
  change (negb (Ascii.eqb c "/") && no_slash (a ++ "/" ++ b)%string = false).
  rewrite IH. apply andb_false_r.
Qed.

Lemma slash_free_parts (e : ListElement) :
  slash_free e = true ->
  no_slash (fst (fst (key_parts e))) = true /\ no_slash (snd (fst (key_parts e))) = true.
Proof. unfold slash_free. apply andb_true_iff. Qed.

Lemma identityProvider_key_parts (e1 e2 : ListElement) :
  slash_free e1 = true -> slash_free e2 = true ->
  identityProvider e1 = identityProvider e2 -> key_parts e1 = key_parts e2.
Proof.
  intros H1 H2 Hk.
  apply slash_free_parts in H1, H2. destruct H1 as [Hc1 Hg1], H2 as [Hc2 Hg2].
  destruct e1 as [g1|r1], e2 as [g2|r2]; simpl in *.
  - apply append_slash_inj in Hk; try assumption. destruct Hk as [Hc Hg].
    unfold group_key. now rewrite Hc, Hg.
  - apply append_slash_inj in Hk; try assumption. destruct Hk as [_ Hg].
    assert (Hn : no_slash (group_id (group_ref g1)) = false)
      by (rewrite Hg; apply no_slash_append_slash).
    congruence.
  - apply append_slash_inj in Hk; try assumption. destruct Hk as [_ Hg].
    assert (Hn : no_slash (group_id (group_ref g2)) = false)
      by (rewrite <- Hg; apply no_slash_append_slash).
    congruence.
  - apply append_slash_inj in Hk; try assumption. destruct Hk as [Hc Hk].
    apply append_slash_inj in Hk; try assumption. destruct Hk as [Hg Hu].
    now rewrite Hc, Hg, Hu.
Qed.

(** X4.  With no "/" in provider context values and group ids, a group row and a
    resource row never have the same key, and two group rows with the same
    key have the same provider context value and group id. *)
Theorem identityProvider_rows_apart (e1 e2 : ListElement) :
  slash_free e1 = true -> slash_free e2 = true ->
  identityProvider e1 = identityProvider e2 ->
  isSCMResource e1 = isSCMResource e2 /\ key_parts e1 = key_parts e2.
Proof.
  intros H1 H2 Hk. pose proof (identityProvider_key_parts e1 e2 H1 H2 Hk) as Hp.
  split; [|assumption].
  destruct e1, e2; simpl in *; try reflexivity; discriminate.
Qed.

Lemma identityProvider_rows_apart_witness :
  isSCMResource (GroupElement working_tree_group)
  = isSCMResource (GroupElement (group 30 "working-tree" false [c_ts]))
  /\ key_parts (GroupElement working_tree_group)
     = key_parts (GroupElement (group 30 "working-tree" false [c_ts])).
Proof.
  apply (identityProvider_rows_apart (GroupElement working_tree_group)
           (GroupElement (group 30 "working-tree" false [c_ts])));
    reflexivity.
Defined.

Lemma NoDup_map_on {A B C : Type} (f : A -> B) (g : A -> C) (l : list A) :
  (forall x y, In x l -> In y l -> f x = f y -> g x = g y) ->
  NoDup (map g l) -> NoDup (map f l).
Proof.
  induction l as [|a l IH]; simpl; intros Hinj Hnd; [constructor|].
  inversion Hnd as [|? ? Hnotin Hnd']; subst. constructor.
  - intros Hin. apply in_map_iff in Hin. destruct Hin as [x [Hfx Hx]].
    apply Hnotin. apply in_map_iff. exists x. split; [|assumption].
    apply Hinj; auto.
  - apply IH; [|assumption]. intros x y Hx Hy. apply Hinj; auto.
Qed.

Lemma NoDup_tagged {A B : Type} (k : A) (us : list B) :
  NoDup us -> NoDup (map (fun u => (k, Some u)) us).
Proof.
  induction us as [|u us IH]; simpl; intros Hnd; [constructor|].
  inversion Hnd as [|? ? Hnotin Hnd']; subst. constructor; [|auto].
  intros Hin. apply in_map_iff in Hin. destruct Hin as [u' [[= ->] Hu']]. contradiction.
Qed.

Section WellFormedGroups.

Variable groups : list ISCMResourceGroup.

(* every resource points back to the group that holds it *)
Hypothesis back_reference :
  forall g r, In g groups -> In r (resources (resourceCollection g)) ->
              resourceGroup r = group_ref g.

Lemma flattened_group_key (e : ListElement) :
  In e (flattened groups) -> In (fst (key_parts e)) (map group_key groups).
Proof.
  intros He. destruct e as [g|r].
  - apply group_in_flattened in He. destruct He as [Hg _].
    simpl. now apply in_map.
  - apply resource_in_flattened in He. destruct He as [g [Hg Hr]].
    simpl. rewrite (back_reference g r Hg Hr). now apply (in_map group_key).
Qed.

Lemma flattened_slash_free (e : ListElement) :
  (forall g, In g groups -> slash_free (GroupElement g) = true) ->
  In e (flattened groups) -> slash_free e = true.
Proof.
  intros Hfree He. destruct e as [g|r].
  - apply group_in_flattened in He. now apply Hfree.
  - apply resource_in_flattened in He. destruct He as [g [Hg Hr]].
    specialize (Hfree g Hg). unfold slash_free in *. simpl in *.
    now rewrite (back_reference g r Hg Hr).
Qed.

End WellFormedGroups.

Lemma flattened_key_parts_NoDup (groups : list ISCMResourceGroup) :
  (forall g r, In g groups -> In r (resources (resourceCollection g)) ->
               resourceGroup r = group_ref g) ->
  NoDup (map group_key groups) ->
  (forall g, In g groups ->
             NoDup (map (fun r => toString (sourceUri r)) (resources (resourceCollection g)))) ->
  NoDup (map key_parts (flattened groups)).
Proof.
  induction groups as [|g groups IH]; intros Hback Hkeys Huris; simpl; [constructor|].
  simpl in Hkeys. inversion Hkeys as [|? ? Hfresh Hkeys']; subst.
  assert (Hback' : forall g' r, In g' groups -> In r (resources (resourceCollection g')) ->
                                resourceGroup r = group_ref g')
    by (intros; apply Hback; simpl; auto).
  assert (IH' : NoDup (map key_parts (flattened groups)))
    by (apply IH; [assumption | assumption | intros; apply Huris; simpl; auto]).
  destruct (shown g); [|assumption].
  assert (Hrest : forall a, In a (map key_parts (flattened groups)) -> fst a <> group_key g).
  { intros a Ha Heq. apply in_map_iff in Ha. destruct Ha as [e [<- He]].
    apply Hfresh. rewrite <- Heq. now apply flattened_group_key. }
  assert (Hmine : map key_parts (map ResourceElement (resources (resourceCollection g)))
                  = map (fun u => (group_key g, Some u))
                      (map (fun r => toString (sourceUri r))
                         (resources (resourceCollection g)))).
  { rewrite !map_map. apply map_ext_in. intros r Hr. simpl.
    rewrite (Hback g r (or_introl eq_refl) Hr). reflexivity. }
  simpl. rewrite map_app, Hmine. constructor.
  - rewrite in_app_iff. intros [Hin | Hin].
    + apply in_map_iff in Hin. destruct Hin as [u [Hu _]]. discriminate.
    + now apply (Hrest _ Hin).
  - apply NoDup_app.
    + apply NoDup_tagged. apply Huris. simpl. auto.
    + assumption.
    + intros a Ha Ha'. apply in_map_iff in Ha. destruct Ha as [u [<- _]].
      now apply (Hrest _ Ha').
Qed.

(** X5.  The rows of the list have pairwise different keys when every resource
    points back to the group that holds it, no provider context value and no
    group id holds a "/", the groups differ in (context value, id), and the
    resources of each group differ in location. *)
Theorem updateList_keys_distinct (p : ProviderPanel) :
  let groups := provider_resources (repository_provider (repository p)) in
  (forall g r, In g groups -> In r (resources (resourceCollection g)) ->
               resourceGroup r = group_ref g) ->
  (forall g, In g groups -> slash_free (GroupElement g) = true) ->
  NoDup (map group_key groups) ->
  (forall g, In g groups ->
             NoDup (map (fun r => toString (sourceUri r)) (resources (resourceCollection g)))) ->
  NoDup (map identityProvider (list_elements (updateList p))).
Proof.
  intros groups Hback Hfree Hkeys Huris. rewrite updateList_elements. fold groups.
  apply (NoDup_map_on identityProvider key_parts).
  - intros x y Hx Hy. apply identityProvider_key_parts.
    + now apply (flattened_slash_free groups Hback).
    + now apply (flattened_slash_free groups Hback).
  - now apply flattened_key_parts_NoDup.
Qed.

Lemma updateList_keys_distinct_witness :
  NoDup (map identityProvider
           (list_elements (updateList (panel_of (git_provider None None) "")))).
Proof.
  apply (updateList_keys_distinct (panel_of (git_provider None None) "")).
  - intros g r [<- | [<- | [<- | []]]] Hr; simpl in Hr; try contradiction.
    destruct Hr as [<- | [<- | []]]; reflexivity.
  - intros g [<- | [<- | [<- | []]]]; reflexivity.
  - simpl. repeat constructor; simpl; intuition discriminate.
  - intros g [<- | [<- | [<- | []]]]; simpl; repeat constructor; simpl; intuition discriminate.
Defined.

(** ** The runner, whatever the selection *)

Section RunnerClosedForm.

Variable host : Host.
Variable getSelectedResources : unit -> list ListElement.

Lemma runAction_menu_item (id : string) (context : ListElement) :
  let selection := getSelectedResources tt in
  let trailing :=
    if in_dec ListElement_eq_dec context selection
    then remove ListElement_eq_dec context selection
    else [] in
  runAction host getSelectedResources (MenuItemAction id) context
  = (action_run host (MenuItemAction id) (context :: trailing),
     [ActionRun (MenuItemAction id) (context :: trailing)]).
Proof.
  intros selection trailing. subst trailing.
  unfold runAction. fold selection. rewrite filter_strict_neq_remove.
  destruct (in_dec ListElement_eq_dec context selection) as [Hin|Hout].
  - pose proof (filter_member_shorter _ _ Hin) as Hlt.
    rewrite filter_strict_neq_remove in Hlt.
    destruct (Nat.eqb_spec (length selection)
                (length (remove ListElement_eq_dec context selection))); [lia|].
    destruct (Nat.eqb_spec (length selection) 1) as [Hone|]; [|reflexivity].
    simpl. destruct (remove ListElement_eq_dec context selection); [reflexivity|].
    simpl in Hlt. lia.
  - rewrite notin_remove by assumption. now rewrite Nat.eqb_refl.
Qed.

(** X6.  A menu-item action is run once, on the context and then, if the
    context is selected, on the rest of the selection (the test for a
    selection of one changes nothing); the context is never passed twice and
    nothing is passed that is not selected. *)
Theorem runAction_arguments (id : string) (context : ListElement) :
  let selection := getSelectedResources tt in
  let trailing :=
    if in_dec ListElement_eq_dec context selection
    then remove ListElement_eq_dec context selection
    else [] in
  runAction host getSelectedResources (MenuItemAction id) context
  = (action_run host (MenuItemAction id) (context :: trailing),
     [ActionRun (MenuItemAction id) (context :: trailing)])
  /\ ~ In context trailing
  /\ incl trailing selection.
Proof.
  intros selection trailing. subst trailing. split; [|split].
  - apply runAction_menu_item.
  - destruct (in_dec ListElement_eq_dec context selection); [apply remove_In | tauto].
  - destruct (in_dec ListElement_eq_dec context selection); intros x Hx; [|destruct Hx].
    now apply in_remove in Hx.
Qed.

End RunnerClosedForm.

Lemma getSelectedResources_no_group (selected : list ListElement) (g : ISCMResourceGroup) :
  ~ In (GroupElement g) (getSelectedResources selected).
Proof.
  intros Hin. pose proof (getSelectedResources_resources selected) as H.
  rewrite Forall_forall in H. specialize (H _ Hin). discriminate.
Qed.

(** X7.  A menu-item action run from the context menu of a group row gets the
    group and nothing else, whatever is selected; run from the context menu
    of a resource row it gets the resource and, if the resource is selected,
    the other selected resources, selected group rows left out. *)
Theorem onListContextMenu_arguments (host : Host) (menus : SCMMenus) (anchor : Anchor)
  (selected : list ListElement) (id : string) :
  (forall g,
      let menu := onListContextMenu host menus
                    {| event_element := GroupElement g; event_anchor := anchor |} in
      getActions menu = getResourceGroupContextActions menus g
      /\ snd (delegate_runAction menu selected (MenuItemAction id) (getActionsContext menu))
         = [ActionRun (MenuItemAction id) [GroupElement g]])
  /\ (forall r,
         let menu := onListContextMenu host menus
                       {| event_element := ResourceElement r; event_anchor := anchor |} in
         getActions menu = getResourceContextActions menus r
         /\ snd (delegate_runAction menu selected (MenuItemAction id) (getActionsContext menu))
            = [ActionRun (MenuItemAction id)
                 (ResourceElement r ::
                    if in_dec ListElement_eq_dec (ResourceElement r) selected
                    then remove ListElement_eq_dec (ResourceElement r)
                           (filter isSCMResource selected)
                    else [])]).
Proof.
  split.
  - intros g menu. subst menu. unfold onListContextMenu.
    cbn [delegate_runAction getActionsContext getActions event_element].
    split; [reflexivity|]. unfold ProviderPanel_runAction.
    rewrite (runAction_menu_item host (fun _ => getSelectedResources selected) id
               (GroupElement g)). cbn [snd].
    destruct (in_dec ListElement_eq_dec (GroupElement g) (getSelectedResources selected))
      as [Hin|]; [|reflexivity].
    destruct (getSelectedResources_no_group selected g Hin).
  - intros r menu. subst menu. unfold onListContextMenu.
    cbn [delegate_runAction getActionsContext getActions event_element].
    split; [reflexivity|]. unfold ProviderPanel_runAction.
    rewrite (runAction_menu_item host (fun _ => getSelectedResources selected) id
               (ResourceElement r)). cbn [snd]. unfold getSelectedResources.
    destruct (in_dec ListElement_eq_dec (ResourceElement r) (filter isSCMResource selected))
      as [Hin|Hout],
      (in_dec ListElement_eq_dec (ResourceElement r) selected) as [Hin'|Hout'];
      try reflexivity.
    + apply filter_In in Hin. tauto.
    + exfalso. apply Hout. apply filter_In. auto.
Qed.

(** ** The rendered provider panel *)

Lemma inputBox_set_value_rendered (v : string) (p : ProviderPanel) :
  rendered p -> rendered (inputBox_set_value v p).
Proof.
  intros [Hb [Hr [Hv Hl]]]. unfold inputBox_set_value, input_set_value.
  destruct (String.eqb (inputBox_value p) v); [now repeat split|].
  cbn. rewrite Hb. cbn. now repeat split.
Qed.

Lemma input_set_value_rendered (v : string) (p : ProviderPanel) :
  rendered p -> rendered (input_set_value v p).
Proof.
  intros [Hb [Hr [Hv Hl]]]. unfold input_set_value. cbn. rewrite Hb. cbn.
  now repeat split.
Qed.

Lemma updateList_rendered (p : ProviderPanel) :
  inputBound p = true -> resourcesListener p = true ->
  inputBox_value p = value (input (repository p)) ->
  rendered (updateList p).
Proof.
  intros Hb Hr Hv. rewrite updateList_replaces. now repeat split.
Qed.

Lemma panel_step_rendered (p : ProviderPanel) (e : PanelEvent) :
  rendered p -> rendered (panel_step p e).
Proof.
  intros H. destruct e as [text|text|template|groups|height editorHeight]; simpl.
  - now apply inputBox_set_value_rendered.
  - now apply input_set_value_rendered.
  - unfold fire_onDidChangeCommitTemplate, updateInputBox. cbn -[inputBox_set_value].
    assert (H' : rendered
                   (with_provider
                      (provider_with_commitTemplate template
                         (repository_provider (repository p))) p))
      by (destruct H as [Hb [Hr [Hv Hl]]]; now repeat split).
    destruct (commitTemplateListener p); [|assumption].
    destruct template; [|assumption].
    now apply inputBox_set_value_rendered.
  - destruct H as [Hb [Hr [Hv Hl]]].
    unfold fire_onDidChangeResources. cbn -[updateList]. rewrite Hr.
    now apply updateList_rendered.
  - destruct H as [Hb [Hr [Hv Hl]]]. unfold layoutBody. cbn. now repeat split.
Qed.

Lemma renderBody_steps (p : ProviderPanel) :
  renderBody p
  = updateList
      (listen_resources
         (updateInputBox
            (bind_input
               (inputBox_set_value (value (input (repository p))) (fresh_body p))))).
Proof. reflexivity. Qed.

Lemma inputBox_set_value_unbound (v : string) (p : ProviderPanel) :
  inputBound p = false -> repository (inputBox_set_value v p) = repository p.
Proof.
  intros Hb. unfold inputBox_set_value.
  destruct (String.eqb (inputBox_value p) v); [reflexivity|].
  cbn. rewrite Hb. reflexivity.
Qed.

Lemma inputBox_set_value_in_step (v : string) (p : ProviderPanel) :
  inputBound p = true ->
  inputBox_value p = value (input (repository p)) ->
  inputBound (inputBox_set_value v p) = true
  /\ inputBox_value (inputBox_set_value v p)
     = value (input (repository (inputBox_set_value v p))).
Proof.
  intros Hb Hv. unfold inputBox_set_value, input_set_value.
  destruct (String.eqb (inputBox_value p) v); [auto|].
  cbn. rewrite Hb. cbn. auto.
Qed.

Lemma renderBody_rendered (p : ProviderPanel) : rendered (renderBody p).
Proof.
  rewrite renderBody_steps.
  set (p1 := inputBox_set_value (value (input (repository p))) (fresh_body p)).
  assert (H1 : inputBox_value p1 = value (input (repository p1))).
  { unfold p1. rewrite inputBox_set_value_sets.
    now rewrite inputBox_set_value_unbound. }
  assert (H2 : inputBound (updateInputBox (bind_input p1)) = true
               /\ inputBox_value (updateInputBox (bind_input p1))
                  = value (input (repository (updateInputBox (bind_input p1))))).
  { unfold updateInputBox.
    destruct (commitTemplate (repository_provider (repository (bind_input p1)))).
    - apply inputBox_set_value_in_step; [reflexivity | exact H1].
    - split; [reflexivity | exact H1]. }
  destruct H2 as [Hb Hv]. apply updateList_rendered; [exact Hb | reflexivity | exact Hv].
Qed.

Lemma panel_run_rendered (events : list PanelEvent) :
  forall p, rendered p -> rendered (panel_run events p).
Proof.
  induction events as [|e events IH]; intros p H; [assumption|].
  apply IH. now apply panel_step_rendered.
Qed.

(** X8.  Once the body is rendered, and whatever follows (the user types, the
    extension sets the repository input, the provider changes its commit
    template or its groups, the panel is laid out), the commit input and the
    repository input hold the same text. *)
Theorem commit_input_in_step (p : ProviderPanel) (events : list PanelEvent) :
  let q := panel_run events (renderBody p) in
  inputBox_value q = value (input (repository q)).
Proof.
  intros q. subst q.
  destruct (panel_run_rendered events _ (renderBody_rendered p)) as [_ [_ [H _]]].
  exact H.
Qed.

(** X9.  Once the body is rendered, and whatever follows, the list is up to date:
    it holds the flattening of the groups the provider has at that time, and
    an update would not change the panel. *)
Theorem list_never_stale (p : ProviderPanel) (events : list PanelEvent) :
  let q := panel_run events (renderBody p) in
  list_elements q
  = flat_map
      (fun g => GroupElement g :: map ResourceElement (resources (resourceCollection g)))
      (filter
         (fun g => negb (length (resources (resourceCollection g)) =? 0)%nat
                   || negb (hideWhenEmpty g))
         (provider_resources (repository_provider (repository q))))
  /\ updateList q = q.
Proof.
  intros q. subst q.
  destruct (panel_run_rendered events _ (renderBody_rendered p)) as [_ [_ [_ H]]].
  split.
  - rewrite H. apply flattened_flat_map.
  - rewrite updateList_replaces, <- H.
    destruct (panel_run events (renderBody p)). reflexivity.
Qed.

(** X10.  Rendering the body writes the provider's commit template, when it has
    one, into the repository input: the message the repository input held is
    replaced. *)
Theorem renderBody_writes_repository_input (p : ProviderPanel) :
  value (input (repository (renderBody p)))
  = match commitTemplate (repository_provider (repository p)) with
    | Some template => template
    | None => value (input (repository p))
    end.
Proof.
  destruct (renderBody_rendered p) as [_ [_ [H _]]]. rewrite <- H.
  unfold renderBody. rewrite updateList_inputBox_value.
  unfold updateInputBox. cbn -[inputBox_set_value].
  rewrite !inputBox_set_value_provider. cbn -[inputBox_set_value].
  destruct (commitTemplate (repository_provider (repository p))) as [template|];
    cbn -[inputBox_set_value]; apply inputBox_set_value_sets.
Qed.

(** ** Laying out again *)

(** X11.  A layout without a height (the input changed its height) uses the
    height of the last layout.  The guard at the head of [layoutBody] never
    stops a call: the height is cached as it comes, and the list height is
    not a number exactly when no height is passed and none is cached.  The
    input scrolls exactly from 134 on. *)
Theorem layoutBody_again (height : option Z) (e e' : Z) (p : ProviderPanel) :
  (forall h, layoutBody None e' (layoutBody (Some h) e p) = layoutBody (Some h) e' p)
  /\ cachedHeight (layoutBody height e p)
     = match height with Some h => Some h | None => cachedHeight p end
  /\ (listContainer_height (layoutBody height e p) = NaN
      <-> height = None /\ cachedHeight p = None)
  /\ (inputBoxContainer_scroll (layoutBody height e p) = true <-> (134 <= e)%Z)
  /\ list_elements (layoutBody height e p) = list_elements p
  /\ inputBox_value (layoutBody height e p) = inputBox_value p.
Proof.
  split; [reflexivity|]. split; [now destruct height|]. split; [|split].
  - unfold layoutBody. cbn. destruct height as [h|]; cbn.
    + split; [discriminate | intros [H _]; discriminate].
    + destruct (cachedHeight p); cbn; split; try discriminate; try tauto.
      intros [_ H]; discriminate.
  - unfold layoutBody. cbn. apply Z.leb_le.
  - split; reflexivity.
Qed.

(** ** The size of the providers panel *)

Lemma rows_height_length (rows : list ISCMRepository) :
  rows_height rows = (22 * Z.of_nat (length rows))%Z.
Proof.
  induction rows as [|r rows IH]; [reflexivity|].
  change (rows_height (r :: rows)) with (22 + rows_height rows)%Z.
  rewrite IH. cbn [length]. lia.
Qed.

Lemma ProvidersPanel_update_result (scmService : ISCMService) (p : ProvidersPanel) :
  ProvidersPanel_update scmService p
  = {| providers_list := repositories scmService;
       minimumBodySize := (Z.min 5 (Z.of_nat (length (repositories scmService))) * 22)%Z;
       maximumBodySize := (Z.min 5 (Z.of_nat (length (repositories scmService))) * 22)%Z |}.
Proof.
  unfold ProvidersPanel_update, ProvidersPanel_updateBodySize.
  cbn [providers_list]. now rewrite splice_all.
Qed.

(** X12.  After an update the body of the providers panel is as tall as its rows,
    but no taller than five rows: between 0 and 110, minimum and maximum
    equal.  The constructor already gives it that size, and rendering the
    body of a new panel is an update. *)
Theorem ProvidersPanel_body_size (scmService : ISCMService) (p : ProvidersPanel) :
  let q := ProvidersPanel_update scmService p in
  minimumBodySize q = Z.min 110 (rows_height (providers_list q))
  /\ maximumBodySize q = minimumBodySize q
  /\ (0 <= minimumBodySize q <= 110)%Z
  /\ minimumBodySize (ProvidersPanel_new scmService) = minimumBodySize q
  /\ ProvidersPanel_renderBody scmService (ProvidersPanel_new scmService) = q.
Proof.
  intros q. subst q. unfold ProvidersPanel_renderBody.
  rewrite !ProvidersPanel_update_result.
  cbn [providers_list minimumBodySize maximumBodySize].
  rewrite rows_height_length.
  split; [lia|]. split; [reflexivity|]. split; [lia|]. split; reflexivity.
Qed.

(** ** Recycled row templates *)

(** X13.  A resource row shows an icon exactly when the resource has a non-empty
    icon for the theme.  With an icon the row does not depend on what the
    template showed before; without one the icon is cleared and all else is
    refreshed, but the tooltip of the resource shown before stays on the
    template. *)
Theorem ResourceRenderer_recycles (scmMenus : SCMMenus) (theme : ThemeType)
  (resource : ISCMResource) (template : ResourceTemplate) :
  let row := ResourceRenderer_renderElement scmMenus theme resource template in
  (decorationIcon_backgroundImage row = "" <-> truthy (theme_icon theme resource) = false)
  /\ (truthy (theme_icon theme resource) = true ->
      forall other,
        ResourceRenderer_renderElement scmMenus theme resource other = row)
  /\ (truthy (theme_icon theme resource) = false ->
      decorationIcon_title row = decorationIcon_title template
      /\ forall before,
           truthy (theme_icon theme before) = true ->
           decorationIcon_title
             (ResourceRenderer_renderElement scmMenus theme resource
                (ResourceRenderer_renderElement scmMenus theme before template))
           = tooltip (decorations before))
  /\ fileLabel_file row = Some (sourceUri resource)
  /\ actionBar_context row = Some (ResourceElement resource).
Proof.
  intros row. subst row. unfold ResourceRenderer_renderElement. cbn.
  split; [|split; [|split]].
  - destruct (theme_icon theme resource) as [[|c i]|]; cbn; split; congruence.
  - intros Ht other. now rewrite Ht.
  - intros Hf. rewrite Hf. split; [reflexivity|].
    intros before Hb. now rewrite Hb.
  - split; reflexivity.
Qed.

Lemma ResourceRenderer_recycles_witness :
  decorationIcon_title
    (ResourceRenderer_renderElement no_menus DARK
       (decorated 2 "file:///b.ts" None None)
       (ResourceRenderer_renderElement no_menus DARK
          (decorated 1 "file:///a.ts" (Some "modified.svg") (Some "Modified"))
          empty_resource_template))
  = Some "Modified".
Proof.
  apply (proj2 (proj1 (proj2 (proj2
           (ResourceRenderer_recycles no_menus DARK (decorated 2 "file:///b.ts" None None)
              empty_resource_template))) eq_refl)
           (decorated 1 "file:///a.ts" (Some "modified.svg") (Some "Modified")) eq_refl).
Defined.

(** ** The secondary actions of the viewlet *)

(** X14.  The secondary actions end with the action that installs additional
    providers; the menu's own actions come first, unchanged; one separator
    is put between the two and only when the menu has actions, so the list
    neither starts with a separator of the viewlet's nor ends with one. *)
Theorem getSecondaryActions_shape (titleSecondaryActions : list ViewletAction) :
  let result := getSecondaryActions titleSecondaryActions in
  last result Separator = InstallAdditionalSCMProvidersAction
  /\ firstn (length titleSecondaryActions) result = titleSecondaryActions
  /\ length result
     = length titleSecondaryActions
       + match titleSecondaryActions with [] => 1 | _ => 2 end
  /\ length (filter is_Separator result)
     = length (filter is_Separator titleSecondaryActions)
       + match titleSecondaryActions with [] => 0 | _ => 1 end
  /\ (hd_error result = Some Separator -> hd_error titleSecondaryActions = Some Separator).
Proof.
  intros result. subst result. unfold getSecondaryActions.
  destruct titleSecondaryActions as [|a l].
  - cbn. repeat split; try reflexivity. discriminate.
  - cbn [length Nat.ltb Nat.leb]. split; [apply last_last|]. split; [|split; [|split]].
    + rewrite <- app_assoc. change (S (length l)) with (length (a :: l)).
      rewrite firstn_app, firstn_all, Nat.sub_diag. cbn [firstn].
      apply (app_nil_r (a :: l)).
    + rewrite !length_app. cbn. lia.
    + rewrite !filter_app, !length_app. cbn. lia.
    + cbn. auto.
Qed.
